(** * eddington-gui: input file box and plot configuration box

    A shallow embedding of [eddington_gui/boxes/input_file_box.py] and
    [eddington_gui/boxes/plot_configuration_box.py].

    Widgets are records of the toolkit state the code reads and writes
    (text of an input, value of a switch, items of a selection, visibility
    of a style).  Methods that mutate widgets and may raise are computations
    in a state-and-exception monad in which the state survives a raise, as a
    Python object survives an exception thrown half-way through a method.
    Collaborators outside the repository (pathlib, xlrd, eddington, the
    builtin [float]) are the fields of two interfaces. *)

From stdpp Require Import gmap strings list.
From Stdlib Require Import Ascii.

(** ** Exceptions and results *)

Inductive exn : Type :=
| ValueError
| AttributeError
| InvalidDataFile
| EddingtonException (message : string)
| OtherError (name : string).

Inductive result (A : Type) : Type :=
| Return (a : A)
| Raise (e : exn).

Arguments Return {A} a.
Arguments Raise {A} e.

Definition is_ValueError (e : exn) : bool :=
  match e with ValueError => true | _ => false end.

Definition is_InvalidDataFile (e : exn) : bool :=
  match e with InvalidDataFile => true | _ => false end.

(** ** A state monad with exceptions

    [M S A] runs on a state [S]; a raise keeps the state reached so far. *)

Definition M (S A : Type) : Type := S → result A * S.

#[export] Instance M_ret {S} : MRet (M S) := λ A a s, (Return a, s).

#[export] Instance M_bind {S} : MBind (M S) := λ A B f m s,
  match m s with
  | (Return a, s') => f a s'
  | (Raise e, s') => (Raise e, s')
  end.

#[export] Instance M_fmap {S} : FMap (M S) := λ A B f m s,
  match m s with
  | (Return a, s') => (Return (f a), s')
  | (Raise e, s') => (Raise e, s')
  end.

Definition raise {S A} (e : exn) : M S A := λ s, (Raise e, s).

Definition lift {S A} (r : result A) : M S A := λ s, (r, s).

Definition gets {S A} (f : S → A) : M S A := λ s, (Return (f s), s).

Definition modify {S} (f : S → S) : M S unit := λ s, (Return tt, f s).

(** [try: body / except E: handler], with [catches] deciding [E]. *)
Definition try_except {S A} (body : M S A) (catches : exn → bool)
    (handler : M S A) : M S A := λ s,
  match body s with
  | (Return a, s') => (Return a, s')
  | (Raise e, s') => if catches e then handler s' else (Raise e, s')
  end.

(** [for x in xs: body x] *)
Fixpoint for_each {S A} (xs : list A) (body : A → M S unit) : M S unit :=
  match xs with
  | [] => mret tt
  | x :: xs' => body x ≫= λ _, for_each xs' body
  end.

(** ** The input file box *)

Module InputFileBox.

(** What the box consumes from outside the repository. *)
Class Externals := {
  (** the ordered column mapping built by eddington's reader *)
  OrderedDict : Type;
  (** [eddington_gui.consts.NO_VALUE], the "no selection" entry *)
  NO_VALUE : string;
  (** [Path(p).suffix] *)
  suffix : string → string;
  (** [Path(p).name] *)
  name : string → string;
  (** [xlrd.open_workbook(p, on_demand=True).sheet_names()] *)
  sheet_names : string → result (list string);
  (** [read_data_from_excel(filepath=Path(p), sheet=v)] *)
  read_data_from_excel : string → string → result OrderedDict;
}.

(** A handler is a callable, known by its identity. *)
Definition Handler : Type := nat.

Section Box.
Context `{Ext : Externals}.

(** What the outside world sees the box do. *)
Inductive Event : Type :=
| HandlerCall (handler : Handler) (data_dict : option OrderedDict)
| ErrorDialog (title message : string).

(** The instance attributes: the text of the read-only path input, the
    selection widget and the loaded dataset. *)
Record InputFileBox : Type := {
  __input_file_path : string;
  __select_sheet_items : list string;
  __select_sheet_enabled : bool;
  __data_dict : option OrderedDict;
}.

(** [__init__]: an empty path input, a disabled selection without items,
    and the class default [__data_dict = None]. *)
Definition init : InputFileBox := {|
  __input_file_path := "";
  __select_sheet_items := [];
  __select_sheet_enabled := false;
  __data_dict := None;
|}.

(** A method runs on its instance and on the trace of events. *)
Record St : Type := { box : InputFileBox; trace : list Event }.

Definition update_box (f : InputFileBox → InputFileBox) : M St unit :=
  modify (λ s, {| box := f (box s); trace := trace s |}).

Definition emit (e : Event) : M St unit :=
  modify (λ s, {| box := box s; trace := trace s ++ [e] |}).

Definition file_path : M St string := gets (λ s, __input_file_path (box s)).

Definition set_file_path (file_path : string) : M St unit :=
  update_box (λ b, {|
    __input_file_path := file_path;
    __select_sheet_items := __select_sheet_items b;
    __select_sheet_enabled := __select_sheet_enabled b;
    __data_dict := __data_dict b |}).

Definition sheets_options : M St (list string) :=
  gets (λ s, __select_sheet_items (box s)).

Definition set_sheets_options (options : option (list string)) : M St unit :=
  update_box (λ b,
    match options with
    | None => {|
        __input_file_path := __input_file_path b;
        __select_sheet_items := [];
        __select_sheet_enabled := false;
        __data_dict := __data_dict b |}
    | Some options => {|
        __input_file_path := __input_file_path b;
        __select_sheet_items := options;
        __select_sheet_enabled := true;
        __data_dict := __data_dict b |}
    end).

Definition data_dict : M St (option OrderedDict) :=
  gets (λ s, __data_dict (box s)).

(** The [data_dict] setter stores the value and then calls every handler
    of [__handlers] with it, in list order.  [handlers] is the content of
    that list when the setter runs; a handler call is recorded as an
    event, and a handler is taken to return. *)
Definition set_data_dict (handlers : list Handler)
    (data_dict : option OrderedDict) : M St unit :=
  update_box (λ b, {|
    __input_file_path := __input_file_path b;
    __select_sheet_items := __select_sheet_items b;
    __select_sheet_enabled := __select_sheet_enabled b;
    __data_dict := data_dict |}) ;;
  for_each handlers (λ handler, emit (HandlerCall handler data_dict)).

Definition is_spreadsheet (input_file_path : string) : bool :=
  bool_decide (suffix input_file_path ∈ [".xlsx"; ".xls"]).

(** [select_file], on a box whose main window is set: [dialog] is what
    [open_file_dialog] does on this call, a path or a raise ([ValueError]
    when the user cancels). *)
Definition select_file (handlers : list Handler) (dialog : result string)
    : M St unit :=
  chosen ← try_except (Some <$> lift dialog) is_ValueError (mret None);
  match chosen with
  | None => mret tt
  | Some input_file_path =>
      set_file_path input_file_path ;;
      (if is_spreadsheet input_file_path then
         sheets ← lift (sheet_names input_file_path);
         set_sheets_options (Some (NO_VALUE :: sheets))
       else set_sheets_options None) ;;
      set_data_dict handlers None
  end.

(** The double quote character of the message's f-string. *)
Definition dquote : string := String (ascii_of_nat 34) "".

Definition invalid_syntax_message (value file_name : string) : string :=
  dquote +:+ value +:+ dquote +:+ " sheet in " +:+ dquote +:+ file_name
  +:+ dquote +:+ " has invalid syntax".

(** [select_sheet], on a box whose main window is set: [value] is
    [widget.value]. *)
Definition select_sheet (handlers : list Handler) (value : string)
    : M St unit :=
  if bool_decide (value = NO_VALUE) then set_data_dict handlers None
  else
    file_path_value ← file_path;
    try_except
      (data ← lift (read_data_from_excel file_path_value value);
       set_data_dict handlers (Some data))
      is_InvalidDataFile
      (emit (ErrorDialog "Invalid Input Source"
               (invalid_syntax_message value (name file_path_value))) ;;
       set_data_dict handlers None).

(** *** Several boxes

    [__handlers = []] is an attribute of the class.  No method assigns
    [self.__handlers], so every instance reads the one list of the class,
    and [append] changes that list in place.  A world holds this list, the
    instances by address, and the events so far. *)
Record World : Type := {
  __handlers : list Handler;
  instances : list InputFileBox;
  events : list Event;
}.

Definition start : World :=
  {| __handlers := []; instances := []; events := [] |}.

(** [InputFileBox()]: the address of the new instance and the new world. *)
Definition new (w : World) : nat * World :=
  (length (instances w),
   {| __handlers := __handlers w;
      instances := instances w ++ [init];
      events := events w |}).

(** [self.__handlers.append(handler)] *)
Definition add_handler (self : nat) (handler : Handler) (w : World) : World :=
  {| __handlers := __handlers w ++ [handler];
     instances := instances w;
     events := events w |}.

(** A method called on the instance at [self]; [None] when no instance
    lives there. *)
Definition call {A} (self : nat) (method : list Handler → M St A)
    (w : World) : option (result A * World) :=
  b ← instances w !! self;
  let '(r, s) := method (__handlers w) {| box := b; trace := events w |} in
  Some (r, {| __handlers := __handlers w;
              instances := <[self := box s]> (instances w);
              events := trace s |}).

End Box.
End InputFileBox.

(** ** The [str] methods the plot box calls, on ASCII text *)

Module str.

Definition is_upper (c : ascii) : bool :=
  (65 <=? nat_of_ascii c) && (nat_of_ascii c <=? 90).

Definition is_lower (c : ascii) : bool :=
  (97 <=? nat_of_ascii c) && (nat_of_ascii c <=? 122).

Definition is_cased (c : ascii) : bool := is_upper c || is_lower c.

Definition to_lower (c : ascii) : ascii :=
  if is_upper c then ascii_of_nat (nat_of_ascii c + 32) else c.

Definition to_upper (c : ascii) : ascii :=
  if is_lower c then ascii_of_nat (nat_of_ascii c - 32) else c.

(** [s.lower()] *)
Fixpoint lower (s : string) : string :=
  match s with
  | EmptyString => EmptyString
  | String c s' => String (to_lower c) (lower s')
  end.

(** [s.replace(old, new)] for one-character [old] and [new] *)
Fixpoint replace (old new : ascii) (s : string) : string :=
  match s with
  | EmptyString => EmptyString
  | String c s' =>
      String (if bool_decide (c = old) then new else c) (replace old new s')
  end.

(** [s.title()]: a cased character is upper-cased after an uncased one
    (or at the start) and lower-cased after a cased one. *)
Fixpoint title_from (previous_is_cased : bool) (s : string) : string :=
  match s with
  | EmptyString => EmptyString
  | String c s' =>
      String (if previous_is_cased then to_lower c else to_upper c)
             (title_from (is_cased c) s')
  end.

Definition title (s : string) : string := title_from false s.

End str.

(** ** The plot configuration box *)

Module PlotConfigurationBox.

(** The builtin [float] on a string: the number, or [None] where Python
    raises [ValueError]. *)
Class Floats := {
  F : Type;
  float : string → option F;
}.

Inductive visibility : Type := VISIBLE | HIDDEN.

(** A [toga.TextInput]: its text and the visibility of its style. *)
Record TextInput : Type := { value : string; style_visibility : visibility }.

(** The instructions a [FigureBuilder] accumulates; [instruction] stands
    for those the plot types add themselves. *)
Inductive Instruction : Type :=
| add_title (title : string)
| add_xlabel (xlabel : string)
| add_ylabel (ylabel : string)
| add_grid
| add_legend
| instruction (name : string).

Definition FigureBuilder : Type := list Instruction.

#[export] Instance result_ret : MRet result := λ A a, Return a.

#[export] Instance result_bind : MBind result := λ A B f r,
  match r with
  | Return a => f a
  | Raise e => Raise e
  end.

Section Box.
Context `{Fl : Floats}.

(** [eddington.interval.Interval] *)
Record Interval : Type := { min_val : option F; max_val : option F }.

(** The attributes of the box.  A label is its visibility, a switch its
    value; [__legend_switch] is [None] when the box has no legend switch. *)
Record PlotConfigurationBox : Type := {
  additional_instructions : FigureBuilder → Interval → FigureBuilder;
  suffix : string;
  __title_input : string;
  __xlabel_input : string;
  __ylabel_input : string;
  __grid_switch : bool;
  __legend_switch : option bool;
  __x_domain_switch : bool;
  __x_min_title : visibility;
  __x_min_input : TextInput;
  __x_max_title : visibility;
  __x_max_input : TextInput;
  __x_log_scale : bool;
  __y_log_scale : bool;
  __has_legend : bool;
  __base_name : option string;
  __xcolumn : option string;
  __ycolumn : option string;
}.

(** [__init__] *)
Definition init
    (additional_instructions : FigureBuilder → Interval → FigureBuilder)
    (suffix : string) (has_legend : bool) : PlotConfigurationBox := {|
  additional_instructions := additional_instructions;
  suffix := suffix;
  __title_input := "";
  __xlabel_input := "";
  __ylabel_input := "";
  __grid_switch := false;
  __legend_switch := if has_legend then Some false else None;
  __x_domain_switch := false;
  __x_min_title := HIDDEN;
  __x_min_input := {| value := ""; style_visibility := HIDDEN |};
  __x_max_title := HIDDEN;
  __x_max_input := {| value := ""; style_visibility := HIDDEN |};
  __x_log_scale := false;
  __y_log_scale := false;
  __has_legend := has_legend;
  __base_name := None;
  __xcolumn := None;
  __ycolumn := None;
|}.

(** *** The getters *)

Definition title (self : PlotConfigurationBox) : string :=
  if negb (bool_decide (__title_input self = "")) then __title_input self
  else match __base_name self with
       | Some base_name => base_name +:+ " - " +:+ str.title (suffix self)
       | None => suffix self
       end.

Definition file_name (self : PlotConfigurationBox) : string :=
  let name :=
    match __base_name self with
    | Some base_name =>
        str.replace " " "_" base_name +:+ "_"
        +:+ str.replace " " "_" (suffix self) +:+ ".png"
    | None => str.replace " " "_" (suffix self) +:+ ".png"
    end in
  str.lower name.

Definition xlabel (self : PlotConfigurationBox) : option string :=
  if negb (bool_decide (__xlabel_input self = "")) then
    Some (__xlabel_input self)
  else match __xcolumn self with
       | Some xcolumn => Some xcolumn
       | None => None
       end.

Definition ylabel (self : PlotConfigurationBox) : option string :=
  if negb (bool_decide (__ylabel_input self = "")) then
    Some (__ylabel_input self)
  else match __ycolumn self with
       | Some ycolumn => Some ycolumn
       | None => None
       end.

Definition grid (self : PlotConfigurationBox) : bool := __grid_switch self.

(** [switch.value]; on [None] the attribute access raises. *)
Definition switch_value (switch : option bool) : result bool :=
  match switch with
  | Some value => Return value
  | None => Raise AttributeError
  end.

(** [a and b] on booleans: [b] is evaluated only when [a] is true. *)
Definition py_and (a : bool) (b : result bool) : result bool :=
  if a then b else Return false.

Definition legend (self : PlotConfigurationBox) : result bool :=
  py_and (bool_decide (__legend_switch self ≠ None))
         (switch_value (__legend_switch self)).

Definition x_log_scale (self : PlotConfigurationBox) : bool :=
  __x_log_scale self.

Definition y_log_scale (self : PlotConfigurationBox) : bool :=
  __y_log_scale self.

Definition xmin (self : PlotConfigurationBox) : result (option F) :=
  if negb (__x_domain_switch self)
     || bool_decide (value (__x_min_input self) = "")
  then Return None
  else match float (value (__x_min_input self)) with
       | Some x => Return (Some x)
       | None =>
           Raise (EddingtonException "X minimum value must a floating number")
       end.

Definition xmax (self : PlotConfigurationBox) : result (option F) :=
  if negb (__x_domain_switch self)
     || bool_decide (value (__x_max_input self) = "")
  then Return None
  else match float (value (__x_max_input self)) with
       | Some x => Return (Some x)
       | None =>
           Raise (EddingtonException "X maximum value must a floating number")
       end.

Definition interval (self : PlotConfigurationBox) : result Interval :=
  min_val ← xmin self;
  max_val ← xmax self;
  mret {| min_val := min_val; max_val := max_val |}.

(** *** The methods that change the box *)

(** [on_fitting_function_load]: [fitting_function] is [None] or the
    [title_name] of the fitting function. *)
Definition on_fitting_function_load (fitting_function : option string)
    : M PlotConfigurationBox unit :=
  modify (λ self, {|
    additional_instructions := additional_instructions self;
    suffix := suffix self;
    __title_input := __title_input self;
    __xlabel_input := __xlabel_input self;
    __ylabel_input := __ylabel_input self;
    __grid_switch := __grid_switch self;
    __legend_switch := __legend_switch self;
    __x_domain_switch := __x_domain_switch self;
    __x_min_title := __x_min_title self;
    __x_min_input := __x_min_input self;
    __x_max_title := __x_max_title self;
    __x_max_input := __x_max_input self;
    __x_log_scale := __x_log_scale self;
    __y_log_scale := __y_log_scale self;
    __has_legend := __has_legend self;
    __base_name := fitting_function;
    __xcolumn := __xcolumn self;
    __ycolumn := __ycolumn self;
  |}).

(** [on_fitting_data_load]: [fitting_data] is [None] or the [x_column] and
    [y_column] of the fitting data. *)
Definition on_fitting_data_load (fitting_data : option (string * string))
    : M PlotConfigurationBox unit :=
  modify (λ self, {|
    additional_instructions := additional_instructions self;
    suffix := suffix self;
    __title_input := __title_input self;
    __xlabel_input := __xlabel_input self;
    __ylabel_input := __ylabel_input self;
    __grid_switch := __grid_switch self;
    __legend_switch := __legend_switch self;
    __x_domain_switch := __x_domain_switch self;
    __x_min_title := __x_min_title self;
    __x_min_input := __x_min_input self;
    __x_max_title := __x_max_title self;
    __x_max_input := __x_max_input self;
    __x_log_scale := __x_log_scale self;
    __y_log_scale := __y_log_scale self;
    __has_legend := __has_legend self;
    __base_name := __base_name self;
    __xcolumn := fst <$> fitting_data;
    __ycolumn := snd <$> fitting_data;
  |}).

Definition x_domain_switch_handler : M PlotConfigurationBox unit :=
  modify (λ self,
    if __x_domain_switch self then {|
      additional_instructions := additional_instructions self;
      suffix := suffix self;
      __title_input := __title_input self;
      __xlabel_input := __xlabel_input self;
      __ylabel_input := __ylabel_input self;
      __grid_switch := __grid_switch self;
      __legend_switch := __legend_switch self;
      __x_domain_switch := __x_domain_switch self;
      __x_min_title := VISIBLE;
      __x_min_input := {| value := value (__x_min_input self);
                          style_visibility := VISIBLE |};
      __x_max_title := VISIBLE;
      __x_max_input := {| value := value (__x_max_input self);
                          style_visibility := VISIBLE |};
      __x_log_scale := __x_log_scale self;
      __y_log_scale := __y_log_scale self;
      __has_legend := __has_legend self;
      __base_name := __base_name self;
      __xcolumn := __xcolumn self;
      __ycolumn := __ycolumn self;
    |}
    else {|
      additional_instructions := additional_instructions self;
      suffix := suffix self;
      __title_input := __title_input self;
      __xlabel_input := __xlabel_input self;
      __ylabel_input := __ylabel_input self;
      __grid_switch := __grid_switch self;
      __legend_switch := __legend_switch self;
      __x_domain_switch := __x_domain_switch self;
      __x_min_title := HIDDEN;
      __x_min_input := {| value := ""; style_visibility := HIDDEN |};
      __x_max_title := HIDDEN;
      __x_max_input := {| value := ""; style_visibility := HIDDEN |};
      __x_log_scale := __x_log_scale self;
      __y_log_scale := __y_log_scale self;
      __has_legend := __has_legend self;
      __base_name := __base_name self;
      __xcolumn := __xcolumn self;
      __ycolumn := __ycolumn self;
    |}).

Definition toggle_grid_switch : M PlotConfigurationBox unit :=
  modify (λ self, {|
    additional_instructions := additional_instructions self;
    suffix := suffix self;
    __title_input := __title_input self;
    __xlabel_input := __xlabel_input self;
    __ylabel_input := __ylabel_input self;
    __grid_switch := negb (__grid_switch self);
    __legend_switch := __legend_switch self;
    __x_domain_switch := __x_domain_switch self;
    __x_min_title := __x_min_title self;
    __x_min_input := __x_min_input self;
    __x_max_title := __x_max_title self;
    __x_max_input := __x_max_input self;
    __x_log_scale := __x_log_scale self;
    __y_log_scale := __y_log_scale self;
    __has_legend := __has_legend self;
    __base_name := __base_name self;
    __xcolumn := __xcolumn self;
    __ycolumn := __ycolumn self;
  |}).

Definition toggle_x_log_scale : M PlotConfigurationBox unit :=
  modify (λ self, {|
    additional_instructions := additional_instructions self;
    suffix := suffix self;
    __title_input := __title_input self;
    __xlabel_input := __xlabel_input self;
    __ylabel_input := __ylabel_input self;
    __grid_switch := __grid_switch self;
    __legend_switch := __legend_switch self;
    __x_domain_switch := __x_domain_switch self;
    __x_min_title := __x_min_title self;
    __x_min_input := __x_min_input self;
    __x_max_title := __x_max_title self;
    __x_max_input := __x_max_input self;
    __x_log_scale := negb (__x_log_scale self);
    __y_log_scale := __y_log_scale self;
    __has_legend := __has_legend self;
    __base_name := __base_name self;
    __xcolumn := __xcolumn self;
    __ycolumn := __ycolumn self;
  |}).

Definition toggle_y_log_scale : M PlotConfigurationBox unit :=
  modify (λ self, {|
    additional_instructions := additional_instructions self;
    suffix := suffix self;
    __title_input := __title_input self;
    __xlabel_input := __xlabel_input self;
    __ylabel_input := __ylabel_input self;
    __grid_switch := __grid_switch self;
    __legend_switch := __legend_switch self;
    __x_domain_switch := __x_domain_switch self;
    __x_min_title := __x_min_title self;
    __x_min_input := __x_min_input self;
    __x_max_title := __x_max_title self;
    __x_max_input := __x_max_input self;
    __x_log_scale := __x_log_scale self;
    __y_log_scale := negb (__y_log_scale self);
    __has_legend := __has_legend self;
    __base_name := __base_name self;
    __xcolumn := __xcolumn self;
    __ycolumn := __ycolumn self;
  |}).

(** [self.__legend_switch.toggle()]; on [None] the attribute access
    raises. *)
Definition toggle_legend_switch : M PlotConfigurationBox unit :=
  legend_switch ← gets __legend_switch;
  match legend_switch with
  | None => raise AttributeError
  | Some value =>
      modify (λ self, {|
        additional_instructions := additional_instructions self;
        suffix := suffix self;
        __title_input := __title_input self;
        __xlabel_input := __xlabel_input self;
        __ylabel_input := __ylabel_input self;
        __grid_switch := __grid_switch self;
        __legend_switch := Some (negb value);
        __x_domain_switch := __x_domain_switch self;
        __x_min_title := __x_min_title self;
        __x_min_input := __x_min_input self;
        __x_max_title := __x_max_title self;
        __x_max_input := __x_max_input self;
        __x_log_scale := __x_log_scale self;
        __y_log_scale := __y_log_scale self;
        __has_legend := __has_legend self;
        __base_name := __base_name self;
        __xcolumn := __xcolumn self;
        __ycolumn := __ycolumn self;
      |})
  end.

(** *** What the toolkit does on user input

    The user types into the five text inputs. *)
Definition user_types (title xlabel ylabel x_min x_max : string)
    : M PlotConfigurationBox unit :=
  modify (λ self, {|
    additional_instructions := additional_instructions self;
    suffix := suffix self;
    __title_input := title;
    __xlabel_input := xlabel;
    __ylabel_input := ylabel;
    __grid_switch := __grid_switch self;
    __legend_switch := __legend_switch self;
    __x_domain_switch := __x_domain_switch self;
    __x_min_title := __x_min_title self;
    __x_min_input := {| value := x_min;
                        style_visibility := style_visibility (__x_min_input self) |};
    __x_max_title := __x_max_title self;
    __x_max_input := {| value := x_max;
                        style_visibility := style_visibility (__x_max_input self) |};
    __x_log_scale := __x_log_scale self;
    __y_log_scale := __y_log_scale self;
    __has_legend := __has_legend self;
    __base_name := __base_name self;
    __xcolumn := __xcolumn self;
    __ycolumn := __ycolumn self;
  |}).

(** The user flips the custom domain switch: the toolkit stores the new
    value and calls [on_change], which is [x_domain_switch_handler]. *)
Definition x_domain_switch_on_change (new_value : bool)
    : M PlotConfigurationBox unit :=
  modify (λ self, {|
    additional_instructions := additional_instructions self;
    suffix := suffix self;
    __title_input := __title_input self;
    __xlabel_input := __xlabel_input self;
    __ylabel_input := __ylabel_input self;
    __grid_switch := __grid_switch self;
    __legend_switch := __legend_switch self;
    __x_domain_switch := new_value;
    __x_min_title := __x_min_title self;
    __x_min_input := __x_min_input self;
    __x_max_title := __x_max_title self;
    __x_max_input := __x_max_input self;
    __x_log_scale := __x_log_scale self;
    __y_log_scale := __y_log_scale self;
    __has_legend := __has_legend self;
    __base_name := __base_name self;
    __xcolumn := __xcolumn self;
    __ycolumn := __ycolumn self;
  |}) ;;
  x_domain_switch_handler.

(** *** The plot arguments and the figure builder *)

(** The values of the keyword arguments. *)
Inductive object : Type :=
| PyNone
| PyStr (s : string)
| PyBool (b : bool)
| PyFloat (x : F).

Definition of_str (s : option string) : object :=
  match s with Some s => PyStr s | None => PyNone end.

Definition of_float (x : option F) : object :=
  match x with Some x => PyFloat x | None => PyNone end.

Definition get_plot_kwargs (self : PlotConfigurationBox)
    : result (gmap string object) :=
  let title_name := title self in
  let xlabel := xlabel self in
  let ylabel := ylabel self in
  let grid := grid self in
  let x_log_scale := x_log_scale self in
  let y_log_scale := y_log_scale self in
  xmin ← xmin self;
  xmax ← xmax self;
  let kwargs : gmap string object :=
    <["xmax" := of_float xmax]> (
    <["xmin" := of_float xmin]> (
    <["y_log_scale" := PyBool y_log_scale]> (
    <["x_log_scale" := PyBool x_log_scale]> (
    <["grid" := PyBool grid]> (
    <["ylabel" := of_str ylabel]> (
    <["xlabel" := of_str xlabel]> (
    <["title_name" := PyStr title_name]> ∅))))))) in
  if __has_legend self then
    legend ← legend self;
    mret (<["legend" := PyBool legend]> kwargs)
  else mret kwargs.

(** [if v is not None: figure_builder.add(v)] *)
Definition add_if_not_None {A} (v : option A) (add : A → Instruction)
    (figure_builder : FigureBuilder) : FigureBuilder :=
  match v with
  | Some a => figure_builder ++ [add a]
  | None => figure_builder
  end.

(** [if flag: figure_builder.add()] *)
Definition add_if (flag : bool) (add : Instruction)
    (figure_builder : FigureBuilder) : FigureBuilder :=
  if flag then figure_builder ++ [add] else figure_builder.

(** One call of [additional_instructions], with its two arguments. *)
Definition Call : Type := FigureBuilder * Interval.

(** [build_figure_builder] reads the box and runs on the list of the calls
    made to [additional_instructions]; the callback works on the builder it
    is given, and the model takes the builder it leaves.  [title] is a
    string, never [None]. *)
Definition build_figure_builder (self : PlotConfigurationBox)
    : M (list Call) FigureBuilder :=
  let figure_builder : FigureBuilder := [] in
  let figure_builder :=
    add_if_not_None (Some (title self)) add_title figure_builder in
  let figure_builder :=
    add_if_not_None (xlabel self) add_xlabel figure_builder in
  let figure_builder :=
    add_if_not_None (ylabel self) add_ylabel figure_builder in
  let figure_builder := add_if (grid self) add_grid figure_builder in
  legend ← lift (legend self);
  let figure_builder := add_if legend add_legend figure_builder in
  interval ← lift (interval self);
  modify (λ calls, calls ++ [(figure_builder, interval)]) ;;
  mret (additional_instructions self figure_builder interval).

(** *** Runs of the box *)

Inductive Action : Type :=
| do_user_types (title xlabel ylabel x_min x_max : string)
| do_x_domain_switch (new_value : bool)
| do_on_fitting_function_load (fitting_function : option string)
| do_on_fitting_data_load (fitting_data : option (string * string))
| do_toggle_grid_switch
| do_toggle_legend_switch
| do_toggle_x_log_scale
| do_toggle_y_log_scale.

Definition run (a : Action) : M PlotConfigurationBox unit :=
  match a with
  | do_user_types title xlabel ylabel x_min x_max =>
      user_types title xlabel ylabel x_min x_max
  | do_x_domain_switch new_value => x_domain_switch_on_change new_value
  | do_on_fitting_function_load f => on_fitting_function_load f
  | do_on_fitting_data_load d => on_fitting_data_load d
  | do_toggle_grid_switch => toggle_grid_switch
  | do_toggle_legend_switch => toggle_legend_switch
  | do_toggle_x_log_scale => toggle_x_log_scale
  | do_toggle_y_log_scale => toggle_y_log_scale
  end.

(** The box after a list of actions; an action that raises leaves the box
    as it is, and the run goes on, as the event loop does. *)
Definition after (actions : list Action) (self : PlotConfigurationBox)
    : PlotConfigurationBox :=
  foldl (λ self a, snd (run a self)) self actions.

End Box.
End PlotConfigurationBox.

(** ** A sample environment

    One concrete file system, reader and number syntax, on which the
    methods run by computation. *)

Module Sample.

(** The part of a path after its last slash. *)
Fixpoint name_from (current p : string) : string :=
  match p with
  | EmptyString => current
  | String c p' =>
      if bool_decide (c = "/"%char) then name_from "" p'
      else name_from (current +:+ String c "") p'
  end.

Definition name (p : string) : string := name_from "" p.

(** The text from the last dot of [n] on. *)
Fixpoint last_dot (n : string) : option string :=
  match n with
  | EmptyString => None
  | String c n' =>
      match last_dot n' with
      | Some s => Some s
      | None => if bool_decide (c = "."%char) then Some n else None
      end
  end.

(** The suffix of the name: from its last dot on, when that dot is neither
    the first nor the last character of the name. *)
Definition suffix (p : string) : string :=
  match name p with
  | EmptyString => ""
  | String _ n' =>
      match last_dot n' with
      | Some (String _ (String _ _) as s) => s
      | _ => ""
      end
  end.

Definition sheet_names (p : string) : result (list string) :=
  if bool_decide (p = "results/data.xlsx") then Return ["Sheet1"; "Sheet2"]
  else if bool_decide (p = "old.xls") then Return []
  else Raise (OtherError "XLRDError").

Definition read_data_from_excel (p sheet : string)
    : result (list (string * list Z)) :=
  if bool_decide (p = "results/data.xlsx") then
    if bool_decide (sheet = "Sheet1") then
      Return [("x", [1; 2; 3]%Z); ("y", [2; 4; 6]%Z)]
    else if bool_decide (sheet = "Sheet2") then Raise InvalidDataFile
    else Raise (OtherError "XLRDError")
  else Raise (OtherError "FileNotFoundError").

#[export] Instance externals : InputFileBox.Externals := {|
  InputFileBox.OrderedDict := list (string * list Z);
  InputFileBox.NO_VALUE := "----------";
  InputFileBox.suffix := suffix;
  InputFileBox.name := name;
  InputFileBox.sheet_names := sheet_names;
  InputFileBox.read_data_from_excel := read_data_from_excel;
|}.

(** Unsigned decimal numerals with an optional fraction, as a numerator
    and the number of decimals: [12.5] is [(125, 1)]. *)
Definition digit (c : ascii) : option N :=
  let n := N_of_ascii c in
  if ((48 <=? n) && (n <=? 57))%N then Some (n - 48)%N else None.

Fixpoint digits (numerator : N) (decimals : option nat) (s : string)
    : option (N * nat) :=
  match s with
  | EmptyString => Some (numerator, default 0 decimals)
  | String c s' =>
      match digit c, decimals with
      | Some d, None => digits (10 * numerator + d) None s'
      | Some d, Some k => digits (10 * numerator + d) (Some (S k)) s'
      | None, None =>
          if bool_decide (c = "."%char) then digits numerator (Some 0) s'
          else None
      | None, Some _ => None
      end
  end.

Definition float (s : string) : option (N * nat) :=
  match s with
  | EmptyString => None
  | String c _ => if bool_decide (c = "."%char) then None else digits 0 None s
  end.

#[export] Instance floats : PlotConfigurationBox.Floats := {|
  PlotConfigurationBox.F := N * nat;
  PlotConfigurationBox.float := float;
|}.

End Sample.

(** * Properties of the input file box *)

Module InputFileBoxProofs.
Import InputFileBox.

Section Box.
Context `{Ext : Externals}.

(** The calls the [data_dict] setter makes: every handler, in list order,
    with the new value. *)
Definition notifications (handlers : list Handler)
    (data_dict : option OrderedDict) : list Event :=
  (λ handler, HandlerCall handler data_dict) <$> handlers.

Definition with_data_dict (data_dict : option OrderedDict)
    (b : InputFileBox) : InputFileBox := {|
  __input_file_path := __input_file_path b;
  __select_sheet_items := __select_sheet_items b;
  __select_sheet_enabled := __select_sheet_enabled b;
  __data_dict := data_dict |}.

Lemma for_each_emit handlers data_dict (s : St) :
  for_each handlers (λ handler, emit (HandlerCall handler data_dict)) s
  = (Return tt,
     {| box := box s; trace := trace s ++ notifications handlers data_dict |}).
Proof.
  revert s. induction handlers as [|h handlers IH]; intros [b t]; simpl.
  - by rewrite app_nil_r.
  - unfold mbind, M_bind, emit, modify at 1. simpl.
    rewrite IH. simpl. by rewrite <- app_assoc.
Qed.

Lemma set_data_dict_run handlers data_dict (s : St) :
  set_data_dict handlers data_dict s
  = (Return tt,
     {| box := with_data_dict data_dict (box s);
        trace := trace s ++ notifications handlers data_dict |}).
Proof.
  unfold set_data_dict, mbind, M_bind, update_box, modify at 1.
  by rewrite for_each_emit.
Qed.

Ltac run_method :=
  unfold select_file, select_sheet, try_except, lift, file_path, gets,
    set_file_path, set_sheets_options, update_box, modify, emit,
    fmap, M_fmap, mbind, M_bind, mret, M_ret; simpl.

Lemma is_spreadsheet_true p :
  suffix p ∈ [".xlsx"; ".xls"] → is_spreadsheet p = true.
Proof. intros H. unfold is_spreadsheet. by rewrite bool_decide_eq_true. Qed.

Lemma is_spreadsheet_false p :
  suffix p ∉ [".xlsx"; ".xls"] → is_spreadsheet p = false.
Proof. intros H. unfold is_spreadsheet. by rewrite bool_decide_eq_false. Qed.

(** C1, as amended.  When the user selects a file, [select_file] stores
    the path; for a path whose suffix is [.xlsx] or [.xls] and whose sheet
    names the workbook reader returns, the sheet selection holds
    [NO_VALUE] followed by the sheet names in the reader's order and is
    enabled; for any other suffix the selection is emptied and disabled;
    in both cases the dataset is set to [None] (and every handler is told
    so).  When the user cancels the dialog, nothing changes. *)
Theorem select_file_spec (handlers : list Handler) (s : St) :
  (∀ p sheets,
     suffix p ∈ [".xlsx"; ".xls"] → sheet_names p = Return sheets →
     select_file handlers (Return p) s
     = (Return tt,
        {| box := {| __input_file_path := p;
                     __select_sheet_items := NO_VALUE :: sheets;
                     __select_sheet_enabled := true;
                     __data_dict := None |};
           trace := trace s ++ notifications handlers None |}))
  ∧ (∀ p,
     suffix p ∉ [".xlsx"; ".xls"] →
     select_file handlers (Return p) s
     = (Return tt,
        {| box := {| __input_file_path := p;
                     __select_sheet_items := [];
                     __select_sheet_enabled := false;
                     __data_dict := None |};
           trace := trace s ++ notifications handlers None |}))
  ∧ select_file handlers (Raise ValueError) s = (Return tt, s).
Proof.
  split; [|split].
  - intros p sheets Hp Hsheets. run_method.
    rewrite (is_spreadsheet_true _ Hp), Hsheets. simpl.
    by rewrite set_data_dict_run.
  - intros p Hp. run_method.
    rewrite (is_spreadsheet_false _ Hp). simpl.
    by rewrite set_data_dict_run.
  - by destruct s.
Qed.

(** When the workbook reader raises, [select_file] raises with the path
    already stored and with the selection and the dataset as they were. *)
Lemma select_file_workbook_raises (handlers : list Handler) (s : St) p e :
  suffix p ∈ [".xlsx"; ".xls"] → sheet_names p = Raise e →
  select_file handlers (Return p) s
  = (Raise e,
     {| box := {| __input_file_path := p;
                  __select_sheet_items := __select_sheet_items (box s);
                  __select_sheet_enabled := __select_sheet_enabled (box s);
                  __data_dict := __data_dict (box s) |};
        trace := trace s |}).
Proof.
  intros Hp He. run_method. by rewrite (is_spreadsheet_true _ Hp), He.
Qed.

(** A raise of the dialog other than [ValueError] is not caught. *)
Lemma select_file_dialog_raises (handlers : list Handler) (s : St) e :
  e ≠ ValueError → select_file handlers (Raise e) s = (Raise e, s).
Proof. intros He. run_method. by destruct e. Qed.

(** C2.  [select_sheet] on [NO_VALUE] sets the dataset to [None].  On
    another value it calls the reader with the stored path and the value:
    a returned dataset is stored; on [InvalidDataFile] an error dialog
    whose message quotes the sheet and the name of the file is shown, the
    dataset is set to [None], and [select_sheet] returns. *)
Theorem select_sheet_spec (handlers : list Handler) (value : string) (s : St) :
  (value = NO_VALUE →
     select_sheet handlers value s
     = (Return tt,
        {| box := with_data_dict None (box s);
           trace := trace s ++ notifications handlers None |}))
  ∧ (∀ data,
     value ≠ NO_VALUE →
     read_data_from_excel (__input_file_path (box s)) value = Return data →
     select_sheet handlers value s
     = (Return tt,
        {| box := with_data_dict (Some data) (box s);
           trace := trace s ++ notifications handlers (Some data) |}))
  ∧ (value ≠ NO_VALUE →
     read_data_from_excel (__input_file_path (box s)) value
     = Raise InvalidDataFile →
     select_sheet handlers value s
     = (Return tt,
        {| box := with_data_dict None (box s);
           trace :=
             trace s
             ++ [ErrorDialog "Invalid Input Source"
                   (dquote +:+ value +:+ dquote +:+ " sheet in " +:+ dquote
                    +:+ name (__input_file_path (box s)) +:+ dquote
                    +:+ " has invalid syntax")]
             ++ notifications handlers None |})).
Proof.
  split; [|split].
  - intros ->. run_method. rewrite bool_decide_eq_true_2 by done.
    by rewrite set_data_dict_run.
  - intros data Hv Hread. run_method. rewrite bool_decide_eq_false_2 by done.
    rewrite Hread. by rewrite set_data_dict_run.
  - intros Hv Hread. run_method. rewrite bool_decide_eq_false_2 by done.
    rewrite Hread. simpl. rewrite set_data_dict_run. simpl.
    by rewrite <- app_assoc.
Qed.

(** Any other raise of the reader is not caught: it leaves the box and
    the trace as they were. *)
Lemma select_sheet_reader_raises (handlers : list Handler) value (s : St) e :
  value ≠ NO_VALUE → e ≠ InvalidDataFile →
  read_data_from_excel (__input_file_path (box s)) value = Raise e →
  select_sheet handlers value s = (Raise e, s).
Proof.
  intros Hv He Hread. run_method. rewrite bool_decide_eq_false_2 by done.
  rewrite Hread. destruct s. by destruct e.
Qed.

(** A handler added through one box is called when the dataset of any
    box of the world changes. *)
Lemma add_handler_reaches_every_box (w : World) (a b : nat) (h : Handler)
    (bx : InputFileBox) (data_dict : option OrderedDict) :
  instances w !! b = Some bx →
  ∃ w', call b (λ handlers, set_data_dict handlers data_dict)
          (add_handler a h w) = Some (Return tt, w')
        ∧ HandlerCall h data_dict ∈ events w'.
Proof.
  intros Hb. unfold call, add_handler. simpl. rewrite Hb. simpl.
  rewrite set_data_dict_run. simpl. eexists. split; [done|]. simpl.
  unfold notifications. rewrite fmap_app. set_solver.
Qed.

(** C6, on the code: two boxes [a] and [b], one handler added through
    [a]; setting the dataset of [b] calls that handler. *)
Theorem handler_of_one_box_called_by_another :
  let '(a, w) := new start in
  let '(b, w) := new w in
  let w := add_handler a 7 w in
  a ≠ b
  ∧ (events ∘ snd) <$> call b (λ handlers, set_data_dict handlers None) w
    = Some [HandlerCall 7 None].
Proof. split; [done|]. reflexivity. Qed.

End Box.

(** *** On the sample environment *)

Definition columns : @OrderedDict Sample.externals :=
  [("x", [1; 2; 3]%Z); ("y", [2; 4; 6]%Z)].

Definition loaded : @St Sample.externals := {|
  box := {| __input_file_path := "results/data.xlsx";
            __select_sheet_items := ["----------"; "Sheet1"; "Sheet2"];
            __select_sheet_enabled := true;
            __data_dict := Some columns |};
  trace := [] |}.

Lemma select_file_spec_witness :
  select_file [1; 2] (Return "old.xls") loaded
  = (Return tt,
     {| box := {| __input_file_path := "old.xls";
                  __select_sheet_items := ["----------"];
                  __select_sheet_enabled := true;
                  __data_dict := None |};
        trace := [HandlerCall 1 None; HandlerCall 2 None] |})
  ∧ select_file [1; 2] (Return "points.csv") loaded
    = (Return tt,
       {| box := {| __input_file_path := "points.csv";
                    __select_sheet_items := [];
                    __select_sheet_enabled := false;
                    __data_dict := None |};
          trace := [HandlerCall 1 None; HandlerCall 2 None] |})
  ∧ select_file [1; 2] (Raise ValueError) loaded = (Return tt, loaded).
Proof.
  destruct (select_file_spec [1; 2] loaded) as (Hsheet & Hother & Hcancel).
  split; [|split].
  - apply (Hsheet "old.xls" []); [compute_done | reflexivity].
  - apply (Hother "points.csv"). compute_done.
  - exact Hcancel.
Defined.

(** C1 as stated fails where the workbook cannot be read: the user selects
    [notes.xls], a path with a spreadsheet suffix; [select_file] raises,
    the selection is not repopulated and the dataset is not set to
    [None]. *)
Lemma select_file_unreadable_workbook :
  @suffix Sample.externals "notes.xls" = ".xls"
  ∧ select_file [1; 2] (Return "notes.xls") loaded
    = (Raise (OtherError "XLRDError"),
       {| box := {| __input_file_path := "notes.xls";
                    __select_sheet_items := ["----------"; "Sheet1"; "Sheet2"];
                    __select_sheet_enabled := true;
                    __data_dict := Some columns |};
          trace := [] |})
  ∧ __data_dict (box (snd (select_file [1; 2] (Return "notes.xls") loaded)))
    ≠ None.
Proof. split; [reflexivity|]. split; [reflexivity|]. discriminate. Qed.

Lemma select_sheet_spec_witness :
  select_sheet [1; 2] "----------" loaded
  = (Return tt,
     {| box := with_data_dict None (box loaded);
        trace := [HandlerCall 1 None; HandlerCall 2 None] |})
  ∧ select_sheet [1] "Sheet1" loaded
    = (Return tt,
       {| box := box loaded;
          trace := [HandlerCall 1 (__data_dict (box loaded))] |})
  ∧ select_sheet [1] "Sheet2" loaded
    = (Return tt,
       {| box := with_data_dict None (box loaded);
          trace :=
            [ErrorDialog "Invalid Input Source"
               (dquote +:+ "Sheet2" +:+ dquote +:+ " sheet in " +:+ dquote
                +:+ "data.xlsx" +:+ dquote +:+ " has invalid syntax");
             HandlerCall 1 None] |}).
Proof.
  split; [|split].
  - apply (proj1 (select_sheet_spec [1; 2] "----------" loaded)). reflexivity.
  - apply (proj1 (proj2 (select_sheet_spec [1] "Sheet1" loaded)) columns);
      [discriminate | reflexivity].
  - apply (proj2 (proj2 (select_sheet_spec [1] "Sheet2" loaded)));
      [discriminate | reflexivity].
Defined.

End InputFileBoxProofs.

(** * Properties of the plot configuration box *)

Module PlotConfigurationBoxProofs.
Import PlotConfigurationBox.

Section Box.
Context `{Fl : Floats}.

(** ** Bounds of the custom domain *)

(** C3.  [xmin] is [None] when the custom domain switch is off or the
    minimum input is empty.  With the switch on and a text that [float]
    rejects it raises [EddingtonException] with the message of the minimum
    field; with a text that [float] accepts it returns the number.  [xmax]
    does the same on the maximum input, with the message of the maximum
    field.  So [xmin] raises on [abc], which [float] rejects. *)
Theorem xmin_xmax_spec (self : PlotConfigurationBox) :
  (__x_domain_switch self = false ∨ value (__x_min_input self) = "" →
     xmin self = Return None)
  ∧ (__x_domain_switch self = true → value (__x_min_input self) ≠ "" →
     float (value (__x_min_input self)) = None →
     xmin self
     = Raise (EddingtonException "X minimum value must a floating number"))
  ∧ (∀ x, __x_domain_switch self = true → value (__x_min_input self) ≠ "" →
     float (value (__x_min_input self)) = Some x →
     xmin self = Return (Some x))
  ∧ (__x_domain_switch self = false ∨ value (__x_max_input self) = "" →
     xmax self = Return None)
  ∧ (__x_domain_switch self = true → value (__x_max_input self) ≠ "" →
     float (value (__x_max_input self)) = None →
     xmax self
     = Raise (EddingtonException "X maximum value must a floating number"))
  ∧ (∀ x, __x_domain_switch self = true → value (__x_max_input self) ≠ "" →
     float (value (__x_max_input self)) = Some x →
     xmax self = Return (Some x))
  ∧ (__x_domain_switch self = true → value (__x_min_input self) = "abc" →
     float "abc" = None →
     xmin self
     = Raise (EddingtonException "X minimum value must a floating number")).
Proof.
  unfold xmin, xmax. repeat split.
  - intros [-> | ->]; [done|]. by rewrite orb_true_r.
  - intros -> Hne ->. by rewrite bool_decide_eq_false_2.
  - intros x -> Hne ->. by rewrite bool_decide_eq_false_2.
  - intros [-> | ->]; [done|]. by rewrite orb_true_r.
  - intros -> Hne ->. by rewrite bool_decide_eq_false_2.
  - intros x -> Hne ->. by rewrite bool_decide_eq_false_2.
  - by intros -> -> ->.
Qed.

(** ** The custom domain switch *)

Definition shown (on : bool) : visibility := if on then VISIBLE else HIDDEN.

(** C4.  When the custom domain switch changes to [new_value], the two
    labels and the two inputs of the bounds become visible if the switch is
    now on and hidden if it is now off, and switching off empties both
    inputs (switching on keeps their text). *)
Theorem x_domain_switch_on_change_spec (new_value : bool)
    (self : PlotConfigurationBox) :
  let self' := snd (x_domain_switch_on_change new_value self) in
  fst (x_domain_switch_on_change new_value self) = Return tt
  ∧ __x_domain_switch self' = new_value
  ∧ __x_min_title self' = shown new_value
  ∧ style_visibility (__x_min_input self') = shown new_value
  ∧ __x_max_title self' = shown new_value
  ∧ style_visibility (__x_max_input self') = shown new_value
  ∧ value (__x_min_input self')
    = (if new_value then value (__x_min_input self) else "")
  ∧ value (__x_max_input self')
    = (if new_value then value (__x_max_input self) else "").
Proof. by destruct new_value. Qed.

(** The visibility of the bound fields follows the switch. *)
Definition bounds_follow_switch (self : PlotConfigurationBox) : Prop :=
  __x_min_title self = shown (__x_domain_switch self)
  ∧ style_visibility (__x_min_input self) = shown (__x_domain_switch self)
  ∧ __x_max_title self = shown (__x_domain_switch self)
  ∧ style_visibility (__x_max_input self) = shown (__x_domain_switch self).

Lemma run_bounds_follow_switch (a : Action) (self : PlotConfigurationBox) :
  bounds_follow_switch self → bounds_follow_switch (snd (run a self)).
Proof.
  intros H. destruct a; try exact H.
  - by destruct new_value.
  - simpl. unfold toggle_legend_switch, gets, mbind, M_bind.
    by destruct (__legend_switch self).
Qed.

(** In every run of a new box the bound fields are visible exactly when
    the custom domain switch is on. *)
Lemma after_bounds_follow_switch callback suffix has_legend actions :
  bounds_follow_switch (after actions (init callback suffix has_legend)).
Proof.
  unfold after.
  assert (H : bounds_follow_switch (init callback suffix has_legend)) by done.
  revert H. generalize (init callback suffix has_legend).
  induction actions as [|a actions IH]; intros self H; [done|].
  simpl. by apply IH, run_bounds_follow_switch.
Qed.

(** ** Title and file name *)

Lemma append_cons (x : ascii) (a b : string) :
  String x a +:+ b = String x (a +:+ b).
Proof. reflexivity. Qed.

Lemma append_assoc (a b c : string) : (a +:+ b) +:+ c = a +:+ (b +:+ c).
Proof.
  induction a as [|x a IH]; [done|]. rewrite !append_cons. by rewrite IH.
Qed.

(** Title-casing goes through [" - "]: the separator is uncased, so the
    text after it starts a new word. *)
Lemma title_from_separator (previous_is_cased : bool) (a b : string) :
  str.title_from previous_is_cased (a +:+ " - " +:+ b)
  = str.title_from previous_is_cased a +:+ " - " +:+ str.title b.
Proof.
  revert previous_is_cased. induction a as [|x a IH]; intros p.
  - by destruct p.
  - rewrite append_cons. simpl. by rewrite IH.
Qed.

(** The title as C5 words it: the whole of [base name - suffix] is
    title-cased. *)
Definition title_as_claimed (self : PlotConfigurationBox) : string :=
  if bool_decide (__title_input self = "") then
    match __base_name self with
    | Some base_name => str.title (base_name +:+ " - " +:+ suffix self)
    | None => suffix self
    end
  else __title_input self.

(** C5, as amended.  [title] is the title input when that is not empty;
    otherwise, with a base name, it is the base name as it is, [" - "], and
    the title-cased suffix, which is the title-cased whole when the base
    name is title-cased already; otherwise it is the suffix as it is.  With
    base name [Linear Fit], suffix [residuals] and an empty input it is
    [Linear Fit - Residuals]. *)
Theorem title_spec (self : PlotConfigurationBox) :
  (__title_input self ≠ "" → title self = __title_input self)
  ∧ (∀ base_name,
       __title_input self = "" → __base_name self = Some base_name →
       title self = base_name +:+ " - " +:+ str.title (suffix self)
       ∧ (str.title base_name = base_name →
          title self = str.title (base_name +:+ " - " +:+ suffix self)))
  ∧ (__title_input self = "" → __base_name self = None →
     title self = suffix self)
  ∧ (__title_input self = "" → __base_name self = Some "Linear Fit" →
     suffix self = "residuals" → title self = "Linear Fit - Residuals").
Proof.
  unfold title. split; [|split; [|split]].
  - intros H. by rewrite bool_decide_eq_false_2.
  - intros base_name -> ->. simpl. split; [done|].
    intros Ht. unfold str.title in *.
    by rewrite title_from_separator, Ht.
  - by intros -> ->.
  - by intros -> -> ->.
Qed.

(** The file name as the specification words it: the suffix with
    underscores for spaces, [.png] after it, the base name with underscores
    for spaces and an underscore before it when there is one, all of it in
    lower case. *)
Definition file_name_as_specified (base_name : option string)
    (suffix : string) : string :=
  let prefix :=
    match base_name with
    | Some base_name => str.replace " " "_" base_name +:+ "_"
    | None => ""
    end in
  str.lower (prefix +:+ str.replace " " "_" suffix +:+ ".png").

(** C9.  [file_name] is the file name as specified, for every base name
    and suffix; with no base name and suffix [fit] it is [fit.png]. *)
Theorem file_name_spec (self : PlotConfigurationBox) :
  file_name self = file_name_as_specified (__base_name self) (suffix self)
  ∧ (__base_name self = None → suffix self = "fit" →
     file_name self = "fit.png").
Proof.
  unfold file_name, file_name_as_specified. split.
  - destruct (__base_name self); [|done]. cbv zeta. by rewrite append_assoc.
  - by intros -> ->.
Qed.

(** Every character of [s] satisfies [p]. *)
Fixpoint all_chars (p : ascii → bool) (s : string) : bool :=
  match s with
  | EmptyString => true
  | String c s' => p c && all_chars p s'
  end.

Definition file_name_char (c : ascii) : bool :=
  negb (str.is_upper c) && negb (bool_decide (c = " "%char)).

Lemma all_chars_append p (a b : string) :
  all_chars p (a +:+ b) = all_chars p a && all_chars p b.
Proof.
  induction a as [|x a IH]; [done|].
  rewrite append_cons. simpl. by rewrite IH, andb_assoc.
Qed.

Lemma to_lower_replace_char (c : ascii) :
  file_name_char
    (str.to_lower (if bool_decide (c = " "%char) then "_"%char else c)) = true.
Proof. by destruct c as [[] [] [] [] [] [] [] []]. Qed.

Lemma lower_replace_chars (s : string) :
  all_chars file_name_char (str.lower (str.replace " " "_" s)) = true.
Proof.
  induction s as [|c s IH]; simpl; [done|].
  by rewrite to_lower_replace_char, IH.
Qed.

Lemma lower_append (a b : string) :
  str.lower (a +:+ b) = str.lower a +:+ str.lower b.
Proof.
  induction a as [|x a IH]; [done|]. rewrite append_cons. simpl.
  by rewrite IH.
Qed.

(** A file name holds no space and no upper-case letter. *)
Lemma file_name_chars (self : PlotConfigurationBox) :
  all_chars file_name_char (file_name self) = true.
Proof.
  unfold file_name. destruct (__base_name self) as [base_name|];
    rewrite !lower_append, !all_chars_append, !lower_replace_chars; done.
Qed.

(** ** The legend *)

Lemma legend_returns (self : PlotConfigurationBox) :
  legend self = Return (default false (__legend_switch self)).
Proof.
  unfold legend. destruct (__legend_switch self) as [v|].
  - by rewrite bool_decide_eq_true_2.
  - by rewrite bool_decide_eq_false_2 by naive_solver.
Qed.

Lemma run_keeps_no_legend_switch (a : Action) (self : PlotConfigurationBox) :
  __legend_switch self = None → __legend_switch (snd (run a self)) = None.
Proof.
  intros H. destruct a; try exact H.
  - by destruct new_value.
  - simpl. unfold toggle_legend_switch, gets, mbind, M_bind. by rewrite H.
Qed.

Lemma after_keeps_no_legend_switch actions (self : PlotConfigurationBox) :
  __legend_switch self = None → __legend_switch (after actions self) = None.
Proof.
  unfold after. revert self.
  induction actions as [|a actions IH]; intros self H; [done|].
  simpl. by apply IH, run_keeps_no_legend_switch.
Qed.

(** C10.  A box built with [has_legend = False] has no legend switch, and
    no method gives it one: after any actions, [legend] returns [False]
    and does not raise. *)
Theorem legend_without_legend_switch callback suffix (actions : list Action) :
  legend (after actions (init callback suffix false)) = Return false.
Proof.
  rewrite legend_returns.
  by rewrite (after_keeps_no_legend_switch actions (init callback suffix false)).
Qed.

(** On such a box [toggle_legend_switch] does raise, and changes
    nothing. *)
Lemma toggle_legend_switch_without_switch callback suffix actions :
  let self := after actions (init callback suffix false) in
  toggle_legend_switch self = (Raise AttributeError, self).
Proof.
  intros self.
  assert (H : __legend_switch self = None)
    by by apply after_keeps_no_legend_switch.
  unfold toggle_legend_switch, gets, mbind, M_bind. by rewrite H.
Qed.

(** ** The plot arguments *)

(** C7, as amended.  When [xmin] and [xmax] return, [get_plot_kwargs]
    returns a dict whose keys are [title_name], [xlabel], [ylabel],
    [grid], [x_log_scale], [y_log_scale], [xmin] and [xmax], each with the
    value of its getter, and [legend], with the value of the [legend]
    getter, exactly when the box was built with a legend.  When [xmin] or
    [xmax] raises, [get_plot_kwargs] raises the same exception. *)
Theorem get_plot_kwargs_spec (self : PlotConfigurationBox) :
  (∀ lo hi, xmin self = Return lo → xmax self = Return hi →
     ∃ (kwargs : gmap string object) (b : bool),
       get_plot_kwargs self = Return kwargs
       ∧ legend self = Return b
       ∧ kwargs !! "title_name" = Some (PyStr (title self))
       ∧ kwargs !! "xlabel" = Some (of_str (xlabel self))
       ∧ kwargs !! "ylabel" = Some (of_str (ylabel self))
       ∧ kwargs !! "grid" = Some (PyBool (grid self))
       ∧ kwargs !! "x_log_scale" = Some (PyBool (x_log_scale self))
       ∧ kwargs !! "y_log_scale" = Some (PyBool (y_log_scale self))
       ∧ kwargs !! "xmin" = Some (of_float lo)
       ∧ kwargs !! "xmax" = Some (of_float hi)
       ∧ kwargs !! "legend"
         = (if __has_legend self then Some (PyBool b) else None)
       ∧ dom kwargs
         = list_to_set ["title_name"; "xlabel"; "ylabel"; "grid";
                        "x_log_scale"; "y_log_scale"; "xmin"; "xmax"]
           ∪ (if __has_legend self then {["legend"]} else ∅))
  ∧ (∀ e, xmin self = Raise e → get_plot_kwargs self = Raise e)
  ∧ (∀ lo e, xmin self = Return lo → xmax self = Raise e →
     get_plot_kwargs self = Raise e).
Proof.
  unfold get_plot_kwargs. split; [|split].
  - intros lo hi -> ->. rewrite legend_returns. simpl.
    destruct (__has_legend self); simpl;
      eexists _, _; (split; [reflexivity|]); (split; [reflexivity|]);
      repeat (split; [by simplify_map_eq|]);
      rewrite !dom_insert_L, dom_empty_L; set_solver.
  - by intros e ->.
  - by intros lo e -> ->.
Qed.

(** ** The figure builder *)

(** The builder [build_figure_builder] hands to the callback. *)
Definition instructions (self : PlotConfigurationBox) (legend : bool)
    : FigureBuilder :=
  [add_title (title self)]
  ++ match xlabel self with Some xlabel => [add_xlabel xlabel] | None => [] end
  ++ match ylabel self with Some ylabel => [add_ylabel ylabel] | None => [] end
  ++ (if grid self then [add_grid] else [])
  ++ (if legend then [add_legend] else []).

(** C8, as amended.  [build_figure_builder] starts from an empty builder
    and adds, in this order, the title (always: [title] is never [None]),
    the x label and the y label when they are not [None], the grid when
    [grid] is true and the legend when [legend] is true.  When [xmin] and
    [xmax] return it then calls [additional_instructions] once, with this
    builder and the interval, and returns the builder the callback leaves;
    when one of them raises, it raises and the callback is not called. *)
Theorem build_figure_builder_spec (self : PlotConfigurationBox)
    (calls : list Call) :
  (∀ interval_, interval self = Return interval_ →
     ∃ b, legend self = Return b
          ∧ build_figure_builder self calls
            = (Return (additional_instructions self (instructions self b)
                         interval_),
               calls ++ [(instructions self b, interval_)]))
  ∧ (∀ e, interval self = Raise e →
     build_figure_builder self calls = (Raise e, calls)).
Proof.
  unfold build_figure_builder, instructions.
  rewrite legend_returns. split.
  - intros iv ->. eexists. split; [reflexivity|].
    unfold lift, mbind, M_bind, modify, mret, M_ret, add_if_not_None, add_if.
    simpl. by destruct (xlabel self), (ylabel self), (grid self),
      (default false (__legend_switch self)).
  - by intros e ->.
Qed.

(** A label is [None] exactly when its input is empty and no column name
    is known. *)
Lemma xlabel_None (self : PlotConfigurationBox) :
  xlabel self = None ↔ __xlabel_input self = "" ∧ __xcolumn self = None.
Proof.
  unfold xlabel. destruct (decide (__xlabel_input self = "")) as [H|H].
  - rewrite bool_decide_eq_true_2 by done. simpl.
    destruct (__xcolumn self); split; try done. by intros [_ ?].
  - rewrite bool_decide_eq_false_2 by done. simpl.
    split; [done|]. by intros [? _].
Qed.

Lemma ylabel_None (self : PlotConfigurationBox) :
  ylabel self = None ↔ __ylabel_input self = "" ∧ __ycolumn self = None.
Proof.
  unfold ylabel. destruct (decide (__ylabel_input self = "")) as [H|H].
  - rewrite bool_decide_eq_true_2 by done. simpl.
    destruct (__ycolumn self); split; try done. by intros [_ ?].
  - rewrite bool_decide_eq_false_2 by done. simpl.
    split; [done|]. by intros [? _].
Qed.

End Box.

(** *** On the sample environment *)

(** The number [12.5]. *)
Definition twelve_and_a_half : @F Sample.floats := (125%N, 1).

(** A callback that adds the plot of the fit. *)
Definition plot_fitting (figure_builder : FigureBuilder)
    (interval : @Interval Sample.floats) : FigureBuilder :=
  figure_builder ++ [instruction "add_plot"].

(** The custom domain is on, with [abc] as minimum and [12.5] as
    maximum. *)
Definition typed_abc : @PlotConfigurationBox Sample.floats :=
  after [do_x_domain_switch true; do_user_types "" "" "" "abc" "12.5"]
    (init plot_fitting "residuals" true).

(** The custom domain is off; the inputs hold text all the same. *)
Definition domain_off : @PlotConfigurationBox Sample.floats :=
  after [do_user_types "" "" "" "abc" "12.5"]
    (init plot_fitting "residuals" true).

(** A box without legend, with a fitting function, columns and a maximum. *)
Definition linear_fit : @PlotConfigurationBox Sample.floats :=
  after [do_on_fitting_function_load (Some "Linear Fit");
         do_on_fitting_data_load (Some ("time", "distance"));
         do_toggle_grid_switch;
         do_x_domain_switch true;
         do_user_types "" "" "Distance [m]" "" "12.5"]
    (init plot_fitting "residuals" false).

Lemma xmin_xmax_spec_witness :
  xmin typed_abc
  = Raise (EddingtonException "X minimum value must a floating number")
  ∧ xmax typed_abc = Return (Some twelve_and_a_half)
  ∧ xmin domain_off = Return None
  ∧ xmax domain_off = Return None.
Proof.
  destruct (xmin_xmax_spec typed_abc) as (_ & _ & _ & _ & _ & Hmax & Habc).
  destruct (xmin_xmax_spec domain_off) as (Hmin_off & _ & _ & Hmax_off & _).
  split; [|split; [|split]].
  - apply Habc; reflexivity.
  - apply Hmax; [reflexivity | discriminate | reflexivity].
  - apply Hmin_off. left. reflexivity.
  - apply Hmax_off. left. reflexivity.
Defined.

Definition lower_case_base_name : @PlotConfigurationBox Sample.floats :=
  after [do_on_fitting_function_load (Some "linear fit")]
    (init plot_fitting "residuals" true).

(** C5 as stated fails for a base name that is not title-cased: the code
    leaves [linear fit] as it is, the title-cased whole starts with
    [Linear Fit]. *)
Lemma title_keeps_base_name :
  title lower_case_base_name = "linear fit - Residuals"
  ∧ title_as_claimed lower_case_base_name = "Linear Fit - Residuals"
  ∧ title lower_case_base_name ≠ title_as_claimed lower_case_base_name.
Proof. split; [reflexivity|]. split; [reflexivity|]. discriminate. Qed.

Lemma title_spec_witness :
  title linear_fit = "Linear Fit - Residuals"
  ∧ title (init plot_fitting "residuals" true) = "residuals"
  ∧ title (after [do_user_types "My plot" "" "" "" ""] linear_fit)
    = "My plot".
Proof.
  split; [|split].
  - apply (proj2 (proj2 (proj2 (title_spec linear_fit)))); reflexivity.
  - apply (proj1 (proj2 (proj2
             (title_spec (init plot_fitting "residuals" true)))));
      reflexivity.
  - apply (proj1 (title_spec
             (after [do_user_types "My plot" "" "" "" ""] linear_fit))).
    discriminate.
Defined.

Lemma file_name_spec_witness :
  file_name (init plot_fitting "fit" true) = "fit.png"
  ∧ file_name linear_fit = "linear_fit_residuals.png".
Proof.
  split.
  - apply (proj2 (file_name_spec (init plot_fitting "fit" true)));
      reflexivity.
  - rewrite (proj1 (file_name_spec linear_fit)). reflexivity.
Defined.

(** C7 as stated fails where a bound is not a number: [get_plot_kwargs]
    returns no dict, it raises. *)
Lemma get_plot_kwargs_raises :
  get_plot_kwargs typed_abc
  = Raise (EddingtonException "X minimum value must a floating number").
Proof. reflexivity. Qed.

Lemma get_plot_kwargs_spec_witness :
  ∃ kwargs : gmap string (@object Sample.floats),
    get_plot_kwargs linear_fit = Return kwargs
    ∧ kwargs !! "title_name" = Some (PyStr "Linear Fit - Residuals")
    ∧ kwargs !! "xlabel" = Some (PyStr "time")
    ∧ kwargs !! "ylabel" = Some (PyStr "Distance [m]")
    ∧ kwargs !! "grid" = Some (PyBool true)
    ∧ kwargs !! "xmin" = Some PyNone
    ∧ kwargs !! "xmax" = Some (PyFloat twelve_and_a_half)
    ∧ kwargs !! "legend" = None.
Proof.
  destruct (proj1 (get_plot_kwargs_spec linear_fit)
              None (Some twelve_and_a_half) eq_refl eq_refl)
    as (kwargs & b & Hrun & _ & Ht & Hx & Hy & Hg & _ & _ & Hmin & Hmax
        & Hlegend & _).
  exists kwargs. repeat split; assumption.
Defined.

(** C8 as stated fails for an empty title: with an empty suffix, no base
    name and no title input the title is the empty string, and the title
    instruction is attached all the same. *)
Lemma build_figure_builder_empty_title :
  title (init plot_fitting "" true) = ""
  ∧ build_figure_builder (init plot_fitting "" true) []
    = (Return [add_title ""; instruction "add_plot"],
       [([add_title ""], {| min_val := None; max_val := None |})]).
Proof. split; reflexivity. Qed.

Lemma build_figure_builder_spec_witness :
  build_figure_builder linear_fit []
  = (Return [add_title "Linear Fit - Residuals"; add_xlabel "time";
             add_ylabel "Distance [m]"; add_grid; instruction "add_plot"],
     [([add_title "Linear Fit - Residuals"; add_xlabel "time";
        add_ylabel "Distance [m]"; add_grid],
       {| min_val := None; max_val := Some twelve_and_a_half |})])
  ∧ build_figure_builder typed_abc []
    = (Raise (EddingtonException "X minimum value must a floating number"),
       []).
Proof.
  split.
  - destruct (proj1 (build_figure_builder_spec linear_fit [])
                {| min_val := None; max_val := Some twelve_and_a_half |} eq_refl)
      as (b & Hb & Hrun).
    injection Hb as <-. exact Hrun.
  - apply (proj2 (build_figure_builder_spec typed_abc [])). reflexivity.
Defined.

End PlotConfigurationBoxProofs.

(** * Runs of the input file box *)

Module InputFileBoxRuns.
Import InputFileBox InputFileBoxProofs.

Section Runs.
Context `{Ext : Externals}.

(** What the toolkit calls on the box: the button runs [select_file], the
    selection runs [select_sheet]. *)
Inductive Action : Type :=
| do_select_file (dialog : result string)
| do_select_sheet (value : string).

Definition run (handlers : list Handler) (a : Action) : M St unit :=
  match a with
  | do_select_file dialog => select_file handlers dialog
  | do_select_sheet value => select_sheet handlers value
  end.

(** The state after a list of actions; a raise ends its action only. *)
Definition after (handlers : list Handler) (actions : list Action) (s : St)
    : St :=
  foldl (λ s a, snd (run handlers a s)) s actions.

(** An enabled selection belongs to a spreadsheet path and starts with
    [NO_VALUE]; a disabled one has no items. *)
Definition dropdown_consistent (b : InputFileBox) : Prop :=
  if __select_sheet_enabled b then
    is_spreadsheet (__input_file_path b) = true
    ∧ ∃ sheets, __select_sheet_items b = NO_VALUE :: sheets
  else __select_sheet_items b = [].

Ltac run_box :=
  unfold select_file, select_sheet, try_except, lift, file_path, gets,
    set_file_path, set_sheets_options, update_box, modify, emit,
    fmap, M_fmap, mbind, M_bind, mret, M_ret; simpl.

(** X1.  Handlers are called in the order of their registration, after
    those registered before, each with the new dataset, and the dataset is
    stored in the instance the setter ran on; a handler added twice is
    called twice. *)
Theorem handlers_called_in_registration_order (w : World) (a b : nat)
    (bx : InputFileBox) (h1 h2 : Handler) (data_dict : option OrderedDict) :
  instances w !! b = Some bx →
  call b (λ handlers, set_data_dict handlers data_dict)
    (add_handler a h2 (add_handler a h1 w))
  = Some (Return tt,
          {| __handlers := __handlers w ++ [h1; h2];
             instances := <[b := with_data_dict data_dict bx]> (instances w);
             events := events w ++ notifications (__handlers w) data_dict
                       ++ [HandlerCall h1 data_dict;
                           HandlerCall h2 data_dict] |}).
Proof.
  intros Hb. unfold call, add_handler. simpl. rewrite Hb. simpl.
  rewrite set_data_dict_run. simpl. unfold notifications.
  by rewrite <- !app_assoc, !fmap_app.
Qed.

(** X2.  When the workbook of a chosen spreadsheet path cannot be read,
    [select_file] raises the reader's exception after the new path is
    stored: the selection and the dataset still are those of the file
    chosen before, and no handler is called. *)
Theorem select_file_unreadable_keeps_old_data (handlers : list Handler)
    (s : St) (p : string) (e : exn) :
  suffix p ∈ [".xlsx"; ".xls"] → sheet_names p = Raise e →
  select_file handlers (Return p) s
  = (Raise e,
     {| box := {| __input_file_path := p;
                  __select_sheet_items := __select_sheet_items (box s);
                  __select_sheet_enabled := __select_sheet_enabled (box s);
                  __data_dict := __data_dict (box s) |};
        trace := trace s |}).
Proof. apply select_file_workbook_raises. Qed.

(** X3.  Only [ValueError] stands for a cancelled dialog: any other
    exception of the dialog leaves [select_file] with the box and the
    trace untouched. *)
Theorem select_file_dialog_failure_escapes (handlers : list Handler)
    (s : St) (e : exn) :
  e ≠ ValueError → select_file handlers (Raise e) s = (Raise e, s).
Proof. apply select_file_dialog_raises. Qed.

(** X4.  Only [InvalidDataFile] is turned into a dialog: any other
    exception of the reader leaves [select_sheet] with no dialog shown, no
    handler called, and the dataset loaded before still in place. *)
Theorem select_sheet_other_failure_escapes (handlers : list Handler)
    (value : string) (s : St) (e : exn) :
  value ≠ NO_VALUE → e ≠ InvalidDataFile →
  read_data_from_excel (__input_file_path (box s)) value = Raise e →
  select_sheet handlers value s = (Raise e, s).
Proof. apply select_sheet_reader_raises. Qed.

Lemma select_sheet_box (handlers : list Handler) (value : string) (s : St) :
  ∃ data_dict,
    box (snd (select_sheet handlers value s))
    = with_data_dict data_dict (box s).
Proof.
  run_box. case_bool_decide.
  - rewrite set_data_dict_run. by eexists.
  - destruct (read_data_from_excel _ value) as [data|e]; simpl.
    + rewrite set_data_dict_run. by eexists.
    + destruct (is_InvalidDataFile e); simpl.
      * rewrite set_data_dict_run. by eexists.
      * exists (__data_dict (box s)). by destruct s as [[] ?].
Qed.

(** X5.  [select_sheet] never changes the path or the selection, whatever
    the value and whatever the reader does. *)
Theorem select_sheet_keeps_path_and_selection (handlers : list Handler)
    (value : string) (s : St) :
  let b' := box (snd (select_sheet handlers value s)) in
  __input_file_path b' = __input_file_path (box s)
  ∧ __select_sheet_items b' = __select_sheet_items (box s)
  ∧ __select_sheet_enabled b' = __select_sheet_enabled (box s).
Proof.
  intros b'. subst b'.
  destruct (select_sheet_box handlers value s) as [d ->]. done.
Qed.

Lemma select_file_dropdown (handlers : list Handler) (dialog : result string)
    (s : St) :
  dropdown_consistent (box s) →
  dropdown_consistent (box (snd (select_file handlers dialog s))).
Proof.
  intros H. destruct dialog as [p|e].
  - destruct (is_spreadsheet p) eqn:Hp.
    + destruct (sheet_names p) as [sheets|e] eqn:Hs; run_box;
        rewrite Hp, Hs; simpl.
      * rewrite set_data_dict_run. unfold dropdown_consistent. simpl. eauto.
      * unfold dropdown_consistent in *. simpl.
        destruct (__select_sheet_enabled (box s)); [|done].
        destruct H as [_ H]. by split.
    + run_box. rewrite Hp. simpl. by rewrite set_data_dict_run.
  - run_box. by destruct e.
Qed.

Lemma run_dropdown (handlers : list Handler) (a : Action) (s : St) :
  dropdown_consistent (box s) →
  dropdown_consistent (box (snd (run handlers a s))).
Proof.
  intros H. destruct a as [dialog|value]; simpl.
  - by apply select_file_dropdown.
  - destruct (select_sheet_box handlers value s) as [d ->]. exact H.
Qed.

(** X6.  In every run of a new box, also through raises, an enabled sheet
    selection goes with a stored path of spreadsheet suffix and starts with
    [NO_VALUE], and a disabled selection has no items. *)
Theorem dropdown_consistent_in_every_run (handlers : list Handler)
    (actions : list Action) :
  dropdown_consistent
    (box (after handlers actions {| box := init; trace := [] |})).
Proof.
  unfold after.
  assert (H : dropdown_consistent (box {| box := init; trace := [] |}))
    by done.
  revert H. generalize {| box := init; trace := [] |}.
  induction actions as [|a actions IH]; intros s H; [done|].
  simpl. by apply IH, run_dropdown.
Qed.

End Runs.

(** *** On the sample environment *)

(** Two new boxes, at addresses 0 and 1. *)
Definition two_boxes : @World Sample.externals := snd (new (snd (new start))).

Lemma handlers_called_in_registration_order_witness :
  call 1 (λ handlers, set_data_dict handlers (Some columns))
    (add_handler 0 7 (add_handler 0 7 two_boxes))
  = Some (Return tt,
          {| __handlers := [7; 7];
             instances := [init; with_data_dict (Some columns) init];
             events := [HandlerCall 7 (Some columns);
                        HandlerCall 7 (Some columns)] |}).
Proof.
  exact (handlers_called_in_registration_order two_boxes 0 1 init 7 7
           (Some columns) eq_refl).
Defined.

Lemma select_file_unreadable_keeps_old_data_witness :
  select_file [1; 2] (Return "notes.xls") loaded
  = (Raise (OtherError "XLRDError"),
     {| box := {| __input_file_path := "notes.xls";
                  __select_sheet_items := ["----------"; "Sheet1"; "Sheet2"];
                  __select_sheet_enabled := true;
                  __data_dict := Some columns |};
        trace := [] |}).
Proof.
  apply (select_file_unreadable_keeps_old_data [1; 2] loaded "notes.xls");
    [compute_done | reflexivity].
Defined.

Lemma select_file_dialog_failure_escapes_witness :
  select_file [1; 2] (Raise (OtherError "RuntimeError")) loaded
  = (Raise (OtherError "RuntimeError"), loaded).
Proof. apply select_file_dialog_failure_escapes. discriminate. Defined.

Lemma select_sheet_other_failure_escapes_witness :
  select_sheet [1; 2] "Sheet3" loaded
  = (Raise (OtherError "XLRDError"), loaded).
Proof.
  apply select_sheet_other_failure_escapes;
    [discriminate | discriminate | reflexivity].
Defined.

End InputFileBoxRuns.

(** * Drawing: [set_scale] and [on_draw] *)

Module Drawing.
Import PlotConfigurationBox.

(** What the box sets on an axis: the formatter of the major ticks and the
    locator of the minor ticks.  [EDDINGTON_FORMATTER] and [NULL_LOCATOR]
    are the two constants of the module; the other constructors stand for
    whatever the axis had. *)
Inductive Formatter : Type := some_formatter (name : string) | EDDINGTON_FORMATTER.

Inductive Locator : Type := some_locator (name : string) | NULL_LOCATOR.

Record Axis : Type := { major_formatter : Formatter; minor_locator : Locator }.

Record Axes : Type := { xaxis : Axis; yaxis : Axis }.

(** A figure, as far as the box reads it: [figure.get_axes()]. *)
Definition Figure : Type := list Axes.

Definition log_axis : Axis :=
  {| major_formatter := EDDINGTON_FORMATTER; minor_locator := NULL_LOCATOR |}.

Section Box.
Context `{Fl : Floats}.

(** [set_scale]: [figure.get_axes()[0]] raises [IndexError] on a figure
    without axes, before the switches are read. *)
Definition set_scale (self : PlotConfigurationBox) : M Figure unit := λ figure,
  match figure with
  | [] => (Raise (OtherError "IndexError"), figure)
  | axes :: others =>
      let axes :=
        if x_log_scale self
        then {| xaxis := log_axis; yaxis := yaxis axes |} else axes in
      let axes :=
        if y_log_scale self
        then {| xaxis := xaxis axes; yaxis := log_axis |} else axes in
      (Return tt, axes :: others)
  end.

(** What [on_draw] works on: the calls made to the callback and the
    figure. *)
Record Canvas : Type := { calls : list Call; figure : Figure }.

Definition on_calls {A} (m : M (list Call) A) : M Canvas A := λ c,
  let '(r, calls) := m (calls c) in
  (r, {| calls := calls; figure := figure c |}).

Definition on_figure {A} (m : M Figure A) : M Canvas A := λ c,
  let '(r, figure) := m (figure c) in
  (r, {| calls := calls c; figure := figure |}).

(** [on_draw]: [build] is [figure_builder.build] of eddington, which works
    on the figure and may raise.  Wrapping a raw figure in [Figure] gives
    the same axes. *)
Definition on_draw (build : FigureBuilder → M Figure unit)
    (self : PlotConfigurationBox) : M Canvas unit :=
  figure_builder ← on_calls (build_figure_builder self);
  on_figure (build figure_builder) ;;
  on_figure (set_scale self).

End Box.
End Drawing.

(** * Runs of the plot configuration box *)

Module PlotConfigurationBoxRuns.
Import PlotConfigurationBox PlotConfigurationBoxProofs Drawing.

Section Runs.
Context `{Fl : Floats}.

(** ** Labels, title and file name *)

(** X7.  A label is [None] exactly when its input is empty and no column
    is known; a non-empty input is the label whatever the column is. *)
Theorem labels_None_iff (self : PlotConfigurationBox) :
  (xlabel self = None ↔ __xlabel_input self = "" ∧ __xcolumn self = None)
  ∧ (ylabel self = None ↔ __ylabel_input self = "" ∧ __ycolumn self = None)
  ∧ (__xlabel_input self ≠ "" → xlabel self = Some (__xlabel_input self))
  ∧ (__ylabel_input self ≠ "" → ylabel self = Some (__ylabel_input self)).
Proof.
  split; [apply xlabel_None|]. split; [apply ylabel_None|].
  unfold xlabel, ylabel.
  split; intros H; by rewrite bool_decide_eq_false_2.
Qed.

(** X8.  After [on_fitting_data_load] a label whose input is empty is the
    column of the loaded data, and [None] after a load of [None], whatever
    was loaded before; a non-empty input stays the label. *)
Theorem labels_after_fitting_data_load (self : PlotConfigurationBox)
    (fitting_data : option (string * string)) :
  let self' := snd (on_fitting_data_load fitting_data self) in
  xlabel self'
  = (if bool_decide (__xlabel_input self = "") then fst <$> fitting_data
     else Some (__xlabel_input self))
  ∧ ylabel self'
    = (if bool_decide (__ylabel_input self = "") then snd <$> fitting_data
       else Some (__ylabel_input self)).
Proof.
  simpl. unfold xlabel, ylabel. simpl.
  split; case_bool_decide; simpl; by destruct fitting_data.
Qed.

(** X9.  After [on_fitting_function_load] the file name starts with the
    new base name and the title, when its input is empty, is built from
    it; after a load of [None] both fall back to the suffix alone, whatever
    was loaded before. *)
Theorem title_and_file_name_after_fitting_function_load
    (self : PlotConfigurationBox) (fitting_function : option string) :
  let self' := snd (on_fitting_function_load fitting_function self) in
  title self'
  = (if bool_decide (__title_input self = "") then
       match fitting_function with
       | Some title_name => title_name +:+ " - " +:+ str.title (suffix self)
       | None => suffix self
       end
     else __title_input self)
  ∧ file_name self' = file_name_as_specified fitting_function (suffix self).
Proof.
  simpl. split.
  - unfold title. simpl. by case_bool_decide.
  - unfold file_name, file_name_as_specified. simpl.
    destruct fitting_function; [|done]. by rewrite append_assoc.
Qed.

Lemma append_empty (a b : string) : a +:+ b = "" → a = "" ∧ b = "".
Proof. destruct a; [done|]. rewrite append_cons. discriminate. Qed.

(** X10.  A file name holds no space and no upper-case letter, and ends
    with [.png]. *)
Theorem file_name_is_safe (self : PlotConfigurationBox) :
  all_chars file_name_char (file_name self) = true
  ∧ ∃ stem, file_name self = stem +:+ ".png".
Proof.
  split; [apply file_name_chars|].
  unfold file_name. destruct (__base_name self) as [base_name|].
  - rewrite !lower_append.
    exists (str.lower (str.replace " " "_" base_name) +:+ str.lower "_"
            +:+ str.lower (str.replace " " "_" (suffix self))).
    by rewrite !append_assoc.
  - rewrite lower_append. by eexists.
Qed.

(** X11.  The title is the empty string only when the title input and the
    suffix are empty and no base name is known. *)
Theorem title_empty_iff (self : PlotConfigurationBox) :
  title self = ""
  ↔ __title_input self = "" ∧ __base_name self = None ∧ suffix self = "".
Proof.
  unfold title. destruct (decide (__title_input self = "")) as [H|H].
  - rewrite bool_decide_eq_true_2 by done. simpl.
    destruct (__base_name self) as [base_name|].
    + split; [|by intros (_ & ? & _)].
      intros [_ [? _]%append_empty]%append_empty. done.
    + split; [done|]. by intros (_ & _ & ?).
  - rewrite bool_decide_eq_false_2 by done. simpl.
    split; [done|]. by intros (? & _).
Qed.

(** ** Bounds *)

Definition minimum_failure : exn :=
  EddingtonException "X minimum value must a floating number".

Definition no_interval : Interval := {| min_val := None; max_val := None |}.

(** X12.  The minimum is read first: with the custom domain on and a
    minimum that [float] rejects, [interval], [get_plot_kwargs] and
    [build_figure_builder] all raise the failure of the minimum, whatever
    the maximum holds, and the callback is not called. *)
Theorem minimum_failure_comes_first (self : PlotConfigurationBox)
    (calls : list Call) :
  __x_domain_switch self = true → value (__x_min_input self) ≠ "" →
  float (value (__x_min_input self)) = None →
  interval self = Raise minimum_failure
  ∧ get_plot_kwargs self = Raise minimum_failure
  ∧ build_figure_builder self calls = (Raise minimum_failure, calls).
Proof.
  intros Hon Hne Hfloat.
  assert (Hmin : xmin self = Raise minimum_failure).
  { unfold xmin. by rewrite Hon, Hfloat, bool_decide_eq_false_2. }
  unfold interval, get_plot_kwargs, build_figure_builder.
  rewrite legend_returns. unfold interval. rewrite Hmin. done.
Qed.

(** X13.  While the custom domain is off nothing raises, whatever the
    bound inputs hold: the interval is unbounded, [get_plot_kwargs]
    returns a dict with [None] for both bounds, and
    [build_figure_builder] calls the callback with the unbounded
    interval. *)
Theorem nothing_raises_while_domain_off (self : PlotConfigurationBox)
    (calls : list Call) :
  __x_domain_switch self = false →
  interval self = Return no_interval
  ∧ (∃ kwargs : gmap string object,
       get_plot_kwargs self = Return kwargs
       ∧ kwargs !! "xmin" = Some PyNone ∧ kwargs !! "xmax" = Some PyNone)
  ∧ ∃ figure_builder,
      build_figure_builder self calls
      = (Return (additional_instructions self figure_builder no_interval),
         calls ++ [(figure_builder, no_interval)]).
Proof.
  intros Hoff.
  assert (Hmin : xmin self = Return None) by (unfold xmin; by rewrite Hoff).
  assert (Hmax : xmax self = Return None) by (unfold xmax; by rewrite Hoff).
  assert (Hint : interval self = Return no_interval).
  { unfold interval. by rewrite Hmin, Hmax. }
  split; [done|]. split.
  - unfold get_plot_kwargs. rewrite Hmin, Hmax, legend_returns. simpl.
    destruct (__has_legend self); simpl;
      eexists; (split; [reflexivity|]); split; by simplify_map_eq.
  - unfold build_figure_builder. rewrite legend_returns, Hint.
    by eexists.
Qed.

(** X14.  Switching the custom domain off and on again forgets the
    bounds: the switch is on and the fields are visible, and both inputs
    are empty, so [xmin] and [xmax] return [None]. *)
Theorem switching_off_and_on_forgets_bounds (self : PlotConfigurationBox) :
  let self' :=
    snd (x_domain_switch_on_change true
           (snd (x_domain_switch_on_change false self))) in
  __x_domain_switch self' = true
  ∧ style_visibility (__x_min_input self') = VISIBLE
  ∧ style_visibility (__x_max_input self') = VISIBLE
  ∧ xmin self' = Return None
  ∧ xmax self' = Return None.
Proof. done. Qed.

(** X15.  In every run of a new box the two labels and the two inputs of
    the bounds are visible when the custom domain switch is on and hidden
    when it is off. *)
Theorem bounds_visible_iff_switch_on callback suffix has_legend
    (actions : list Action) :
  let self := after actions (init callback suffix has_legend) in
  __x_min_title self = shown (__x_domain_switch self)
  ∧ style_visibility (__x_min_input self) = shown (__x_domain_switch self)
  ∧ __x_max_title self = shown (__x_domain_switch self)
  ∧ style_visibility (__x_max_input self) = shown (__x_domain_switch self).
Proof. apply after_bounds_follow_switch. Qed.

(** ** Switches *)

Lemma run_keeps_has_legend (a : Action) (self : PlotConfigurationBox) :
  __has_legend (snd (run a self)) = __has_legend self
  ∧ (is_Some (__legend_switch (snd (run a self)))
     ↔ is_Some (__legend_switch self)).
Proof.
  destruct a; try done.
  - by destruct new_value.
  - simpl. unfold toggle_legend_switch, gets, mbind, M_bind.
    destruct (__legend_switch self) as [v|] eqn:Hv; simpl.
    + split; [done|]. split; intros _; by eexists.
    + split; [done|]. by rewrite Hv.
Qed.

Lemma after_keeps_has_legend callback suffix (has_legend : bool)
    (actions : list Action) :
  let self := after actions (init callback suffix has_legend) in
  __has_legend self = has_legend
  ∧ (is_Some (__legend_switch self) ↔ has_legend = true).
Proof.
  unfold after.
  assert (H : __has_legend (init callback suffix has_legend) = has_legend
            ∧ (is_Some (__legend_switch (init callback suffix has_legend))
               ↔ has_legend = true)).
  { split; [done|]. destruct has_legend; simpl.
    - split; [done|]. intros _. by eexists.
    - split; [|done]. intros [v Hv]. discriminate Hv. }
  revert H. generalize (init callback suffix has_legend).
  induction actions as [|a actions IH]; intros self H; [done|].
  simpl. apply IH. destruct (run_keeps_has_legend a self) as [-> ->]. done.
Qed.

(** X16.  In every run a box keeps the [has_legend] it was built with,
    and it has a legend switch exactly when that is true. *)
Theorem legend_switch_iff_has_legend callback suffix (has_legend : bool)
    (actions : list Action) :
  let self := after actions (init callback suffix has_legend) in
  __has_legend self = has_legend
  ∧ (is_Some (__legend_switch self) ↔ has_legend = true).
Proof. apply after_keeps_has_legend. Qed.

(** X17.  On a box built with a legend, [toggle_legend_switch] returns
    and flips [legend]; on a box built without one it raises
    [AttributeError] and leaves the box as it is. *)
Theorem toggle_legend_switch_by_has_legend callback suffix
    (has_legend : bool) (actions : list Action) :
  let self := after actions (init callback suffix has_legend) in
  if has_legend then
    fst (toggle_legend_switch self) = Return tt
    ∧ ∃ b, legend self = Return b
           ∧ legend (snd (toggle_legend_switch self)) = Return (negb b)
  else toggle_legend_switch self = (Raise AttributeError, self).
Proof.
  intros self.
  destruct (after_keeps_has_legend callback suffix has_legend actions)
    as [_ Hswitch]. fold self in Hswitch.
  unfold toggle_legend_switch, gets, mbind, M_bind.
  destruct has_legend.
  - destruct (proj2 Hswitch eq_refl) as [v Hv]. rewrite Hv. simpl.
    split; [done|]. exists v. rewrite !legend_returns. simpl.
    by rewrite Hv.
  - destruct (__legend_switch self) as [v|] eqn:Hv; [|done].
    assert (Hsome : is_Some (Some v)) by by eexists.
    apply Hswitch in Hsome. discriminate Hsome.
Qed.

(** X18.  Toggling a switch twice gives the box back. *)
Theorem toggles_twice_restore (self : PlotConfigurationBox) :
  snd (toggle_grid_switch (snd (toggle_grid_switch self))) = self
  ∧ snd (toggle_legend_switch (snd (toggle_legend_switch self))) = self
  ∧ snd (toggle_x_log_scale (snd (toggle_x_log_scale self))) = self
  ∧ snd (toggle_y_log_scale (snd (toggle_y_log_scale self))) = self.
Proof.
  destruct self as [? ? ? ? ? g [l|] ? ? ? ? ? x y ? ? ? ?];
    unfold toggle_legend_switch, gets, mbind, M_bind; simpl;
    by rewrite ?negb_involutive.
Qed.

(** ** Drawing *)

(** X19.  On a figure with axes [set_scale] returns; it changes the first
    axes only, each of its two axis objects only when the log scale of
    that axis is on; and a second [set_scale] changes nothing more. *)
Theorem set_scale_first_axes_only (self : PlotConfigurationBox)
    (axes : Axes) (others : list Axes) :
  ∃ axes',
    set_scale self (axes :: others) = (Return tt, axes' :: others)
    ∧ xaxis axes' = (if x_log_scale self then log_axis else xaxis axes)
    ∧ yaxis axes' = (if y_log_scale self then log_axis else yaxis axes)
    ∧ set_scale self (axes' :: others) = (Return tt, axes' :: others).
Proof.
  unfold set_scale. eexists. split; [reflexivity|].
  destruct axes as [x y], (x_log_scale self), (y_log_scale self); done.
Qed.

(** X20.  With a bound that is no number [on_draw] raises the validation
    failure before anything is drawn: the figure is as it was and the
    callback is not called, whatever [build] does. *)
Theorem on_draw_invalid_bound_draws_nothing
    (build : FigureBuilder → M Figure unit) (self : PlotConfigurationBox)
    (canvas : Canvas) (e : exn) :
  interval self = Raise e →
  on_draw build self canvas = (Raise e, canvas).
Proof.
  intros H. unfold on_draw, on_calls, mbind, M_bind, build_figure_builder.
  rewrite legend_returns, H. by destruct canvas.
Qed.

(** X21.  When [build] leaves a figure without axes, [on_draw] raises
    [IndexError] after the callback was called and the figure was built,
    also when no log scale is on. *)
Theorem on_draw_without_axes
    (build : FigureBuilder → M Figure unit) (self : PlotConfigurationBox)
    (canvas : Canvas) (interval_ : Interval) :
  interval self = Return interval_ →
  (∀ figure_builder, build figure_builder (figure canvas) = (Return tt, [])) →
  ∃ figure_builder,
    on_draw build self canvas
    = (Raise (OtherError "IndexError"),
       {| calls := calls canvas ++ [(figure_builder, interval_)];
          figure := [] |}).
Proof.
  intros H Hbuild.
  unfold on_draw, on_calls, on_figure, mbind, M_bind, build_figure_builder.
  rewrite legend_returns, H. simpl. rewrite Hbuild. simpl. by eexists.
Qed.

End Runs.

(** *** On the sample environment *)

(** The custom domain is on, with [abc] as minimum and [xyz] as
    maximum. *)
Definition both_invalid : @PlotConfigurationBox Sample.floats :=
  after [do_x_domain_switch true; do_user_types "" "" "" "abc" "xyz"]
    (init plot_fitting "residuals" true).

Lemma minimum_failure_comes_first_witness :
  xmax both_invalid
  = Raise (EddingtonException "X maximum value must a floating number")
  ∧ interval both_invalid = Raise minimum_failure
  ∧ get_plot_kwargs both_invalid = Raise minimum_failure
  ∧ build_figure_builder both_invalid [] = (Raise minimum_failure, []).
Proof.
  split; [reflexivity|].
  apply (minimum_failure_comes_first both_invalid []);
    [reflexivity | discriminate | reflexivity].
Defined.

Lemma nothing_raises_while_domain_off_witness :
  value (__x_min_input domain_off) = "abc"
  ∧ interval domain_off = Return no_interval.
Proof.
  split; [reflexivity|].
  apply (nothing_raises_while_domain_off domain_off []). reflexivity.
Defined.

(** A figure with one axes, as matplotlib makes it. *)
Definition one_axes : Figure :=
  [{| xaxis := {| major_formatter := some_formatter "ScalarFormatter";
                  minor_locator := some_locator "AutoLocator" |};
      yaxis := {| major_formatter := some_formatter "ScalarFormatter";
                  minor_locator := some_locator "AutoLocator" |} |}].

(** A [build] that leaves the figure as it finds it. *)
Definition build_nothing (figure_builder : FigureBuilder) : M Figure unit :=
  λ figure, (Return tt, figure).

(** A [build] that leaves a figure without axes. *)
Definition build_no_axes (figure_builder : FigureBuilder) : M Figure unit :=
  λ figure, (Return tt, []).

Lemma on_draw_invalid_bound_draws_nothing_witness :
  on_draw build_nothing typed_abc {| calls := []; figure := one_axes |}
  = (Raise (EddingtonException "X minimum value must a floating number"),
     {| calls := []; figure := one_axes |}).
Proof. apply on_draw_invalid_bound_draws_nothing. reflexivity. Defined.

Lemma on_draw_without_axes_witness :
  ∃ figure_builder,
    on_draw build_no_axes linear_fit {| calls := []; figure := one_axes |}
    = (Raise (OtherError "IndexError"),
       {| calls := [(figure_builder,
                     {| min_val := None; max_val := Some twelve_and_a_half |})];
          figure := [] |}).
Proof.
  apply (on_draw_without_axes build_no_axes linear_fit
           {| calls := []; figure := one_axes |}
           {| min_val := None; max_val := Some twelve_and_a_half |});
    reflexivity.
Defined.

End PlotConfigurationBoxRuns.
